(** * Kalliope / Linus C bridges: forwarding stubs and stdin redirection

    A shallow embedding of [Sources/CKalliopeBridge/CKalliope.c] and
    [Sources/CLinusBridge/CLinusBridge.c].

    Both translation units consist of calls into code that lives
    elsewhere (GMP, MPFR, the C library).  A C function is therefore
    embedded as a finite tree of external calls: each node names the
    library function called together with its arguments, and continues
    with the value the library hands back.  A tree is run against a
    _handler_, which gives every external call a meaning on some
    world type; the run yields the C return value, the final world and
    the list of calls made, in order. *)

From stdpp Require Import base option list gmap strings.
From Stdlib Require Import ZArith Lia.
From Stdlib.Strings Require Import Byte.

Local Open Scope Z_scope.

(** ** C values *)

(** The stream objects a [FILE *] can point to. *)
Inductive stream : Type :=
| Stdin
| Stdout
| Stderr
| Stream (n : nat).

Global Instance stream_eq_dec : EqDecision stream.
Proof. solve_decision. Defined.

(** A [FILE *]: [None] is the null pointer.  The [void *stream]
    parameters of the bridges are cast to [FILE *] before use; a cast
    between object pointer types keeps the pointer, so they carry the
    same type here. *)
Definition FILE_ptr : Type := option stream.
Definition NULL : FILE_ptr := None.
Definition stdin : FILE_ptr := Some Stdin.
Definition stdout : FILE_ptr := Some Stdout.

(** Data pointers ([char *], [char **], [void *]) are addresses. *)
Definition ptr : Type := Z.

(** A [va_list]: the captured trailing arguments, as machine words. *)
Record va_list : Type := VaList { va_words : list Z }.

(** [<unistd.h>] *)
Definition STDIN_FILENO : Z := 0.

(** [int] is 32 bits wide on every ABI the package is built for;
    conversion to it wraps around. *)
Definition INT_MIN : Z := - 2 ^ 31.
Definition INT_MAX : Z := 2 ^ 31 - 1.
Definition is_int (z : Z) : Prop := INT_MIN <= z <= INT_MAX.
Definition to_int (z : Z) : Z := (z + 2 ^ 31) mod 2 ^ 32 - 2 ^ 31.

(** ** External calls *)

(** A library interface: the calls it offers and what each returns. *)
Record signature : Type := Signature {
  action : Type;
  result : action → Type
}.

(** GMP's [va_list] entry points, declared [extern] in
    CKalliopeBridge.h.  A [const char *] argument is modelled by the
    string it points to. *)
Inductive gmp_action : Type :=
| __gmp_vprintf (fmt : string) (ap : va_list)
| __gmp_vfprintf (fp : FILE_ptr) (fmt : string) (ap : va_list)
| __gmp_vsprintf (buf : ptr) (fmt : string) (ap : va_list)
| __gmp_vsnprintf (buf : ptr) (size : Z) (fmt : string) (ap : va_list)
| __gmp_vasprintf (pp : ptr) (fmt : string) (ap : va_list)
| __gmp_vscanf (fmt : string) (ap : va_list)
| __gmp_vfscanf (fp : FILE_ptr) (fmt : string) (ap : va_list)
| __gmp_vsscanf (s : string) (fmt : string) (ap : va_list).

Definition gmp : signature := Signature gmp_action (λ _, Z).

(** The functions of [<mpfr.h>] that CLinusBridge.c calls. *)
Inductive mpfr_action : Type :=
| mpfr_rint_floor (rop op : ptr) (rnd : Z)
| mpfr_rint_ceil (rop op : ptr) (rnd : Z)
| mpfr_rint_trunc (rop op : ptr) (rnd : Z)
| mpfr_vprintf (fmt : string) (ap : va_list)
| mpfr_vfprintf (fp : FILE_ptr) (fmt : string) (ap : va_list).

Definition mpfr : signature := Signature mpfr_action (λ _, Z).

(** The part of [<stdio.h>] and [<unistd.h>] the stdin helpers live
    in: the four functions they call, [fflush], which their comments
    name as deliberately not called, and [fgetc], the read their
    callers perform next.  [freopen] takes a null path in
    [ckalliope_restore_stdin]. *)
Inductive libc_action : Type :=
| freopen (path : option string) (mode : string) (fp : FILE_ptr)
| clearerr (fp : FILE_ptr)
| rewind (fp : FILE_ptr)
| dup2 (oldfd newfd : Z)
| fflush (fp : FILE_ptr)
| fgetc (fp : FILE_ptr).

Definition libc_result (a : libc_action) : Type :=
  match a with
  | freopen _ _ _ => FILE_ptr
  | clearerr _ | rewind _ => unit
  | dup2 _ _ | fflush _ | fgetc _ => Z
  end.

Definition libc : signature := Signature libc_action libc_result.

(** ** Programs *)

Inductive prog (Σ : signature) (R : Type) : Type :=
| Ret (r : R)
| Act (a : action Σ) (k : result Σ a → prog Σ R).
Arguments Ret {Σ R} r.
Arguments Act {Σ R} a k.

Fixpoint prog_bind {Σ A B} (f : A → prog Σ B) (p : prog Σ A) : prog Σ B :=
  match p with
  | Ret r => f r
  | Act a k => Act a (λ x, prog_bind f (k x))
  end.

Global Instance prog_ret {Σ} : MRet (prog Σ) := @Ret Σ.
Global Instance prog_mbind {Σ} : MBind (prog Σ) := @prog_bind Σ.

(** One external call, returning what the library returned. *)
Definition call {Σ} (a : action Σ) : prog Σ (result Σ a) := Act a Ret.

(** ** Running a program *)

(** A handler interprets each call of [Σ] on the world [W]. *)
Definition handler (Σ : signature) (W : Type) : Type :=
  ∀ a : action Σ, W → result Σ a * W.

Record outcome (Σ : signature) (W R : Type) : Type := Outcome {
  returned : R;
  world : W;
  calls : list (action Σ)
}.
Arguments Outcome {Σ W R} _ _ _.
Arguments returned {Σ W R} _.
Arguments world {Σ W R} _.
Arguments calls {Σ W R} _.

Fixpoint run {Σ W R} (h : handler Σ W) (p : prog Σ R) (w : W)
  : outcome Σ W R :=
  match p with
  | Ret r => Outcome r w []
  | Act a k =>
      let o := run h (k (h a w).1) (h a w).2 in
      Outcome (returned o) (world o) (a :: calls o)
  end.

(** "Exactly one call of [a], result handed back unchanged", in the
    words of the specification: whatever the library does, running
    [p] is running [a]. *)
Definition forwards_to {Σ} (a : action Σ) (p : prog Σ (result Σ a)) : Prop :=
  ∀ (W : Type) (h : handler Σ W) (w : W),
    run h p w = Outcome (h a w).1 (h a w).2 [a].

(** ** CKalliope.c: the [va_list] bridges *)

Definition ckalliope_vprintf (fmt : string) (ap : va_list) : prog gmp Z :=
  call (Σ := gmp) (__gmp_vprintf fmt ap).

Definition ckalliope_vfprintf (fp : FILE_ptr) (fmt : string) (ap : va_list)
  : prog gmp Z :=
  call (Σ := gmp) (__gmp_vfprintf fp fmt ap).

Definition ckalliope_vsprintf (buf : ptr) (fmt : string) (ap : va_list)
  : prog gmp Z :=
  call (Σ := gmp) (__gmp_vsprintf buf fmt ap).

Definition ckalliope_vsnprintf (buf : ptr) (size : Z) (fmt : string)
    (ap : va_list) : prog gmp Z :=
  call (Σ := gmp) (__gmp_vsnprintf buf size fmt ap).

Definition ckalliope_vasprintf (pp : ptr) (fmt : string) (ap : va_list)
  : prog gmp Z :=
  call (Σ := gmp) (__gmp_vasprintf pp fmt ap).

Definition ckalliope_vscanf (fmt : string) (ap : va_list) : prog gmp Z :=
  call (Σ := gmp) (__gmp_vscanf fmt ap).

Definition ckalliope_vfscanf (fp : FILE_ptr) (fmt : string) (ap : va_list)
  : prog gmp Z :=
  call (Σ := gmp) (__gmp_vfscanf fp fmt ap).

Definition ckalliope_vsscanf (s : string) (fmt : string) (ap : va_list)
  : prog gmp Z :=
  call (Σ := gmp) (__gmp_vsscanf s fmt ap).

(** ** CKalliope.c: redirecting and restoring standard input *)

Definition ckalliope_redirect_stdin_from_file (filepath : string)
  : prog libc Z :=
  result ← call (Σ := libc) (freopen (Some filepath) "r" stdin);
  if decide (result = NULL) then mret (-1)
  else if decide (result ≠ stdin) then mret (-1)
  else
    _ ← call (Σ := libc) (clearerr stdin);
    _ ← call (Σ := libc) (rewind stdin);
    mret 0.

Definition ckalliope_restore_stdin (original_fd : Z) : prog libc Z :=
  d ← call (Σ := libc) (dup2 original_fd STDIN_FILENO);
  if bool_decide (d < 0) then mret (-1)
  else
    result ← call (Σ := libc) (freopen None "r" stdin);
    if decide (result = NULL) then mret (-1)
    else if decide (result ≠ stdin) then mret (-1)
    else
      _ ← call (Σ := libc) (clearerr stdin);
      mret 0.

(** ** CLinusBridge.c *)

(** [mpfr_prec_t] is [long] (CLinusBridge.h); its width is left to the
    platform. *)
Definition to_long (long_bits z : Z) : Z :=
  (z + 2 ^ (long_bits - 1)) mod 2 ^ long_bits - 2 ^ (long_bits - 1).
Definition to_ulong (long_bits z : Z) : Z := z mod 2 ^ long_bits.

(** Modelled from the spec: the macros [MPFR_PREC_MIN] and
    [MPFR_PREC_MAX] come from [<mpfr.h>], which is not among the
    sources.  The specification describes them as two immutable
    integers fixed when the library is built, the first below the
    second; the values taken here are the ones that header gives them,
    [1] and [((mpfr_prec_t) ((((mpfr_uprec_t) -1) >> 1) - 256))] with
    [mpfr_uprec_t] the unsigned type of [mpfr_prec_t]. *)
Definition MPFR_PREC_MIN : Z := 1.
Definition MPFR_PREC_MAX (long_bits : Z) : Z :=
  to_long long_bits
    (to_ulong long_bits (Z.shiftr (to_ulong long_bits (-1)) 1 - 256)).

Definition clinus_get_prec_min (long_bits : Z) : prog mpfr Z :=
  mret (to_long long_bits MPFR_PREC_MIN).

Definition clinus_get_prec_max (long_bits : Z) : prog mpfr Z :=
  mret (MPFR_PREC_MAX long_bits).

(** The cast [(mpfr_rnd_t)rnd].  [mpfr_rnd_t] is an enumeration with
    a negative enumerator, so its underlying type is [int]. *)
Definition to_mpfr_rnd_t (rnd : Z) : Z := to_int rnd.

Definition clinus_mpfr_rint_floor (rop op : ptr) (rnd : Z) : prog mpfr Z :=
  call (Σ := mpfr) (mpfr_rint_floor rop op (to_mpfr_rnd_t rnd)).

Definition clinus_mpfr_rint_ceil (rop op : ptr) (rnd : Z) : prog mpfr Z :=
  call (Σ := mpfr) (mpfr_rint_ceil rop op (to_mpfr_rnd_t rnd)).

Definition clinus_mpfr_rint_trunc (rop op : ptr) (rnd : Z) : prog mpfr Z :=
  call (Σ := mpfr) (mpfr_rint_trunc rop op (to_mpfr_rnd_t rnd)).

Definition clinus_mpfr_vprintf (fmt : string) (ap : va_list) : prog mpfr Z :=
  call (Σ := mpfr) (mpfr_vprintf fmt ap).

Definition clinus_mpfr_vfprintf (fp : FILE_ptr) (fmt : string) (ap : va_list)
  : prog mpfr Z :=
  call (Σ := mpfr) (mpfr_vfprintf fp fmt ap).

(** ** The C library's side of standard input

    [freopen], [dup2], [clearerr] and [rewind] belong to the C library
    and the kernel.  Statements that hold whatever they do are proved
    for every handler.  Statements about what standard input is bound
    to afterwards need their meaning; [posix] below gives it, after ISO
    C (7.21.5.4, 7.21.9.5, 7.21.10.1) and POSIX ([freopen], [dup2]):
    a descriptor table over open file descriptions, the [stdin] stream
    with its descriptor and indicators, and the bytes [stdout] holds
    back.  Reads are unbuffered: the offset of a description is the
    position of the stream on it. *)

(** An open file description: the bytes of the file and the offset. *)
Record ofd : Type := Ofd {
  ofd_data : list byte;
  ofd_pos : nat
}.

(** A stream that is open: its descriptor and its two indicators. *)
Record FILE : Type := File {
  file_fd : Z;
  file_eof : bool;
  file_err : bool
}.

Record process : Type := Process {
  p_files : gmap string (list byte);   (* readable files, by path *)
  p_ofds : list ofd;                   (* open file descriptions *)
  p_fds : gmap Z nat;                  (* descriptor → index in [p_ofds] *)
  p_stdin : option FILE;               (* [None]: the stream is closed *)
  p_stdout : list byte;                (* buffered in [stdout], unwritten *)
  p_written : list byte;               (* written out through [stdout] *)
  p_aborted : bool                     (* the C library has called [abort] *)
}.

Definition set_stdin (s : option FILE) (w : process) : process :=
  Process (p_files w) (p_ofds w) (p_fds w) s (p_stdout w) (p_written w)
    (p_aborted w).
Definition set_fds (fds : gmap Z nat) (w : process) : process :=
  Process (p_files w) (p_ofds w) fds (p_stdin w) (p_stdout w) (p_written w)
    (p_aborted w).
Definition set_ofds (ofds : list ofd) (w : process) : process :=
  Process (p_files w) ofds (p_fds w) (p_stdin w) (p_stdout w) (p_written w)
    (p_aborted w).
Definition set_aborted (w : process) : process :=
  Process (p_files w) (p_ofds w) (p_fds w) (p_stdin w) (p_stdout w)
    (p_written w) true.

(** The open file description standard input reads from, if any. *)
Definition stdin_source (w : process) : option ofd :=
  f ← p_stdin w; i ← p_fds w !! file_fd f; p_ofds w !! i.

(** [fclose] on [stdin]: the descriptor is released, the stream is
    closed. *)
Definition close_stdin (w : process) : process :=
  match p_stdin w with
  | Some f => set_stdin None (set_fds (delete (file_fd f) (p_fds w)) w)
  | None => w
  end.

(** [open] hands out the lowest descriptor that is not in use. *)
Fixpoint first_free_from (fds : gmap Z nat) (fuel : nat) (n : Z) : Z :=
  match fuel with
  | O => n
  | S fuel' =>
      if decide (fds !! n = None) then n
      else first_free_from fds fuel' (n + 1)
  end.
Definition first_free (fds : gmap Z nat) : Z :=
  first_free_from fds (size fds) 0.

(** [freopen] on [stdin].  With a path: the stream is closed first,
    whether or not the open that follows succeeds; on success the
    stream is bound to the new file at offset 0 with both indicators
    clear, and the stream itself is returned.  With a null path the
    call behaves as if the name of the file the stream is on had been
    given, the way glibc carries it out: the file behind the stream's
    descriptor is opened afresh, a new open file description at offset
    0, and put on the descriptor number the stream had; when that
    descriptor is not open the call fails and the stream is closed.
    On a stream that is already closed ISO C gives the call no
    meaning; glibc aborts the process, which [p_aborted] records (the
    pointer handed back then stands for nothing). *)
Definition posix_freopen (path : option string) (fp : FILE_ptr) (w : process)
  : FILE_ptr * process :=
  match fp with
  | Some Stdin =>
      match path with
      | Some name =>
          let w1 := close_stdin w in
          match p_files w1 !! name with
          | Some data =>
              let fd := first_free (p_fds w1) in
              (fp,
               set_stdin (Some (File fd false false))
                 (set_fds (<[fd := length (p_ofds w1)]> (p_fds w1))
                    (set_ofds (p_ofds w1 ++ [Ofd data 0%nat]) w1)))
          | None => (NULL, w1)
          end
      | None =>
          match p_stdin w with
          | Some f =>
              match p_fds w !! file_fd f ≫= (p_ofds w !!.) with
              | Some o =>
                  (fp,
                   set_stdin (Some (File (file_fd f) false false))
                     (set_fds
                        (<[file_fd f := length (p_ofds w)]> (p_fds w))
                        (set_ofds (p_ofds w ++ [Ofd (ofd_data o) 0%nat]) w)))
              | None => (NULL, close_stdin w)
              end
          | None => (NULL, set_aborted w)
          end
      end
  | _ => (NULL, w)
  end.

(** [dup2]: fails, changing nothing, unless [oldfd] is open. *)
Definition posix_dup2 (oldfd newfd : Z) (w : process) : Z * process :=
  if decide (0 ≤ oldfd ∧ 0 ≤ newfd) then
    match p_fds w !! oldfd with
    | Some i => (newfd, set_fds (<[newfd := i]> (p_fds w)) w)
    | None => (-1, w)
    end
  else (-1, w).

Definition clear_indicators (w : process) : process :=
  match p_stdin w with
  | Some f => set_stdin (Some (File (file_fd f) false false)) w
  | None => w
  end.

Definition posix_clearerr (fp : FILE_ptr) (w : process) : unit * process :=
  match fp with
  | Some Stdin => (tt, clear_indicators w)
  | _ => (tt, w)
  end.

(** [rewind]: [(void) fseek (stream, 0L, SEEK_SET)], then the error
    indicator is cleared. *)
Definition posix_rewind (fp : FILE_ptr) (w : process) : unit * process :=
  match fp with
  | Some Stdin =>
      match p_stdin w with
      | Some f =>
          let ofds :=
            match p_fds w !! file_fd f with
            | Some i => alter (λ o, Ofd (ofd_data o) 0%nat) i (p_ofds w)
            | None => p_ofds w
            end in
          (tt, clear_indicators (set_ofds ofds w))
      | None => (tt, w)
      end
  | _ => (tt, w)
  end.

(** [fflush] on [stdout] writes the buffered bytes out. *)
Definition posix_fflush (fp : FILE_ptr) (w : process) : Z * process :=
  match fp with
  | Some Stdout =>
      (0, Process (p_files w) (p_ofds w) (p_fds w) (p_stdin w) []
            (p_written w ++ p_stdout w) (p_aborted w))
  | _ => (-1, w)
  end.

Definition EOF : Z := -1.

(** [fgetc] on [stdin]: when the end-of-file indicator is not set and
    a byte is present at the offset, that byte, and the offset
    advances; at the end of the data the indicator is set. *)
Definition posix_fgetc (fp : FILE_ptr) (w : process) : Z * process :=
  match fp with
  | Some Stdin =>
      match p_stdin w with
      | Some f =>
          if file_eof f then (EOF, w) else
          match p_fds w !! file_fd f with
          | Some i =>
              match p_ofds w !! i with
              | Some o =>
                  match ofd_data o !! ofd_pos o with
                  | Some b =>
                      (Z.of_N (Byte.to_N b),
                       set_ofds
                         (<[i := Ofd (ofd_data o) (S (ofd_pos o))]> (p_ofds w))
                         w)
                  | None =>
                      (EOF,
                       set_stdin (Some (File (file_fd f) true (file_err f))) w)
                  end
              | None =>
                  (EOF,
                   set_stdin (Some (File (file_fd f) (file_eof f) true)) w)
              end
          | None =>
              (EOF, set_stdin (Some (File (file_fd f) (file_eof f) true)) w)
          end
      | None => (EOF, w)
      end
  | _ => (EOF, w)
  end.

Definition posix : handler libc process :=
  λ a,
    match a return process → result libc a * process with
    | freopen path _ fp => posix_freopen path fp
    | clearerr fp => posix_clearerr fp
    | rewind fp => posix_rewind fp
    | dup2 oldfd newfd => posix_dup2 oldfd newfd
    | fflush fp => posix_fflush fp
    | fgetc fp => posix_fgetc fp
    end.

(** A scripted C library: [dup2] answers [d], [freopen] answers [fr],
    and the world is the log of the calls received. *)
Definition scripted (d : Z) (fr : FILE_ptr)
  : handler libc (list libc_action) :=
  λ a log,
    (match a return result libc a with
     | freopen _ _ _ => fr
     | clearerr _ | rewind _ => tt
     | dup2 _ _ => d
     | fflush _ => 0
     | fgetc _ => EOF
     end,
     log ++ [a]).

(** Calls that act on the standard-input stream or on its descriptor. *)
Definition input_side (a : libc_action) : bool :=
  match a with
  | freopen _ _ fp | clearerr fp | rewind fp | fgetc fp =>
      bool_decide (fp = stdin)
  | dup2 _ newfd => bool_decide (newfd = STDIN_FILENO)
  | fflush _ => false
  end.

(** What the process holds on the output side. *)
Definition output_state (w : process) : list byte * list byte :=
  (p_stdout w, p_written w).

(** The process after a run of redirection attempts, none if the list
    is empty. *)
Definition after_redirects (history : list string) (w : process) : process :=
  foldl
    (λ w filepath,
       world (run posix (ckalliope_redirect_stdin_from_file filepath) w))
    w history.

(** A descriptor that is open. *)
Definition open_fd (w : process) (fd : Z) : Prop :=
  0 ≤ fd ∧ is_Some (p_fds w !! fd).

Global Instance open_fd_dec w fd : Decision (open_fd w fd).
Proof. unfold open_fd. apply _. Defined.

(** A process reading a two-byte source on descriptor 0, with a
    duplicate of it saved as descriptor 3, five bytes ["3.14\n"] in
    [in.txt], and two bytes waiting in the [stdout] buffer. *)
Definition sample_process : process :=
  Process {[ "in.txt"%string := [x33; x2e; x31; x34; x0a] ]}
    [Ofd [x68; x69] 1%nat]
    {[ 0 := 0%nat; 3 := 0%nat ]}
    (Some (File 0 false true))
    [x6f; x6b]
    []
    false.

(** The claim of the specification: a failed redirection leaves
    standard input bound to what it was bound to. *)
Definition redirect_failure_keeps_stdin : Prop :=
  ∀ (filepath : string) (w : process),
    let o := run posix (ckalliope_redirect_stdin_from_file filepath) w in
    returned o ≠ 0 →
    returned o = -1 ∧
    p_stdin (world o) = p_stdin w ∧
    stdin_source (world o) = stdin_source w.

(** * Properties *)

(** ** Running the two stdin helpers, step by step *)

Section Helpers.
Context {W : Type} (h : handler libc W).

Lemma run_redirect (filepath : string) (w : W) :
  let f := h (freopen (Some filepath) "r" stdin) w in
  let c := h (clearerr stdin) f.2 in
  let r := h (rewind stdin) c.2 in
  run h (ckalliope_redirect_stdin_from_file filepath) w =
    if decide (f.1 = stdin)
    then Outcome (Σ := libc) 0 r.2
           [freopen (Some filepath) "r" stdin; clearerr stdin; rewind stdin]
    else Outcome (Σ := libc) (-1) f.2 [freopen (Some filepath) "r" stdin].
Proof.
  cbn. destruct (h (freopen (Some filepath) "r" stdin) w) as [fr w1]. cbn.
  repeat case_decide; subst; try done.
Qed.

Lemma run_restore (original_fd : Z) (w : W) :
  let d := h (dup2 original_fd STDIN_FILENO) w in
  let f := h (freopen None "r" stdin) d.2 in
  let c := h (clearerr stdin) f.2 in
  run h (ckalliope_restore_stdin original_fd) w =
    if bool_decide (d.1 < 0)
    then Outcome (Σ := libc) (-1) d.2 [dup2 original_fd STDIN_FILENO]
    else if decide (f.1 = stdin)
    then Outcome (Σ := libc) 0 c.2
           [dup2 original_fd STDIN_FILENO; freopen None "r" stdin;
            clearerr stdin]
    else Outcome (Σ := libc) (-1) f.2
           [dup2 original_fd STDIN_FILENO; freopen None "r" stdin].
Proof.
  cbn. destruct (h (dup2 original_fd STDIN_FILENO) w) as [d w1]. cbn.
  case_bool_decide; [done |]. cbn.
  destruct (h (freopen None "r" stdin) w1) as [fr w2]. cbn.
  repeat case_decide; subst; try done.
Qed.
End Helpers.

(** ** The forwarding bridges *)

(** C1.  Each of the ten [va_list] bridges forwards: under every
    meaning of the library and from every world, running the bridge
    makes exactly one call, the wrapped function on the very arguments
    the bridge was given, hands back that call's result and leaves the
    world as that call left it. *)
Theorem va_list_bridges_forward :
  (∀ fmt ap,
     forwards_to (Σ := gmp) (__gmp_vprintf fmt ap) (ckalliope_vprintf fmt ap)) ∧
  (∀ fp fmt ap,
     forwards_to (Σ := gmp) (__gmp_vfprintf fp fmt ap)
       (ckalliope_vfprintf fp fmt ap)) ∧
  (∀ buf fmt ap,
     forwards_to (Σ := gmp) (__gmp_vsprintf buf fmt ap)
       (ckalliope_vsprintf buf fmt ap)) ∧
  (∀ buf size fmt ap,
     forwards_to (Σ := gmp) (__gmp_vsnprintf buf size fmt ap)
       (ckalliope_vsnprintf buf size fmt ap)) ∧
  (∀ pp fmt ap,
     forwards_to (Σ := gmp) (__gmp_vasprintf pp fmt ap)
       (ckalliope_vasprintf pp fmt ap)) ∧
  (∀ fmt ap,
     forwards_to (Σ := gmp) (__gmp_vscanf fmt ap) (ckalliope_vscanf fmt ap)) ∧
  (∀ fp fmt ap,
     forwards_to (Σ := gmp) (__gmp_vfscanf fp fmt ap)
       (ckalliope_vfscanf fp fmt ap)) ∧
  (∀ s fmt ap,
     forwards_to (Σ := gmp) (__gmp_vsscanf s fmt ap)
       (ckalliope_vsscanf s fmt ap)) ∧
  (∀ fmt ap,
     forwards_to (Σ := mpfr) (mpfr_vprintf fmt ap)
       (clinus_mpfr_vprintf fmt ap)) ∧
  (∀ fp fmt ap,
     forwards_to (Σ := mpfr) (mpfr_vfprintf fp fmt ap)
       (clinus_mpfr_vfprintf fp fmt ap)).
Proof. repeat split. Qed.

Lemma to_int_id (z : Z) : is_int z → to_int z = z.
Proof.
  unfold is_int, INT_MIN, INT_MAX, to_int. intros Hz.
  rewrite Z.mod_small; lia.
Qed.

(** C6.  For every destination, operand and rounding-mode code (an
    [int]), each of the three rounding bridges makes exactly one call,
    the library's operation of the same name on the same two handles
    and with the very code it was given, and returns that call's
    status. *)
Theorem rint_bridges_forward (rop op : ptr) (rnd : Z) :
  is_int rnd →
  forwards_to (Σ := mpfr) (mpfr_rint_floor rop op rnd)
    (clinus_mpfr_rint_floor rop op rnd) ∧
  forwards_to (Σ := mpfr) (mpfr_rint_ceil rop op rnd)
    (clinus_mpfr_rint_ceil rop op rnd) ∧
  forwards_to (Σ := mpfr) (mpfr_rint_trunc rop op rnd)
    (clinus_mpfr_rint_trunc rop op rnd).
Proof.
  intros Hrnd.
  unfold clinus_mpfr_rint_floor, clinus_mpfr_rint_ceil,
    clinus_mpfr_rint_trunc, to_mpfr_rnd_t.
  rewrite (to_int_id rnd Hrnd). repeat split.
Qed.

Lemma rint_bridges_forward_witness :
  is_int 3 ∧
  forwards_to (Σ := mpfr) (mpfr_rint_floor 4096 8192 3)
    (clinus_mpfr_rint_floor 4096 8192 3).
Proof.
  assert (H : is_int 3) by (unfold is_int, INT_MIN, INT_MAX; lia).
  split; [exact H |]. exact (proj1 (rint_bridges_forward 4096 8192 3 H)).
Defined.

(** ** The precision bounds *)

Lemma MPFR_PREC_MAX_value (long_bits : Z) :
  32 ≤ long_bits → MPFR_PREC_MAX long_bits = 2 ^ (long_bits - 1) - 257.
Proof.
  intros Hbits. unfold MPFR_PREC_MAX, to_long, to_ulong.
  assert (Hpow : 2 ^ long_bits = 2 * 2 ^ (long_bits - 1)).
  { rewrite <- Z.pow_succ_r by lia. f_equal. lia. }
  assert (Hbig : 2 ^ 31 ≤ 2 ^ (long_bits - 1))
    by (apply Z.pow_le_mono_r; lia).
  change (2 ^ 31) with 2147483648 in Hbig.
  rewrite Hpow. set (P := 2 ^ (long_bits - 1)) in *.
  replace ((-1) `mod` (2 * P)) with (2 * P - 1).
  2:{ apply (Z.mod_unique_pos _ _ (-1)); lia. }
  rewrite Z.shiftr_div_pow2 by lia. change (2 ^ 1) with 2.
  replace ((2 * P - 1) `div` 2) with (P - 1).
  2:{ apply (Z.div_unique_pos _ _ _ 1); lia. }
  rewrite (Z.mod_small (P - 1 - 256)) by lia.
  rewrite Z.mod_small by lia. lia.
Qed.

(** C5.  Whatever the width of [long] (at least 32 bits), there are
    two integers [lo < hi] such that every call of
    [clinus_get_prec_min] returns [lo] and every call of
    [clinus_get_prec_max] returns [hi], in every world and under every
    meaning of the library, without making any call and without
    changing the world. *)
Theorem prec_bounds_constant (long_bits : Z) :
  32 ≤ long_bits →
  ∃ lo hi : Z,
    (∀ (W : Type) (h : handler mpfr W) (w : W),
       run h (clinus_get_prec_min long_bits) w = Outcome lo w []) ∧
    (∀ (W : Type) (h : handler mpfr W) (w : W),
       run h (clinus_get_prec_max long_bits) w = Outcome hi w []) ∧
    lo < hi.
Proof.
  intros Hbits. exists 1, (2 ^ (long_bits - 1) - 257).
  assert (Hbig : 2 ^ 31 ≤ 2 ^ (long_bits - 1))
    by (apply Z.pow_le_mono_r; lia).
  change (2 ^ 31) with 2147483648 in Hbig.
  split; [| split].
  - intros W h w. cbn. f_equal. unfold to_long, MPFR_PREC_MIN.
    assert (Hpow : 2 ^ long_bits = 2 * 2 ^ (long_bits - 1)).
    { rewrite <- Z.pow_succ_r by lia. f_equal. lia. }
    rewrite Hpow, Z.mod_small; lia.
  - intros W h w. cbn. by rewrite MPFR_PREC_MAX_value.
  - lia.
Qed.

Lemma prec_bounds_constant_witness :
  32 ≤ 64 ∧
  ∃ lo hi : Z,
    (∀ (W : Type) (h : handler mpfr W) (w : W),
       run h (clinus_get_prec_min 64) w = Outcome lo w []) ∧
    (∀ (W : Type) (h : handler mpfr W) (w : W),
       run h (clinus_get_prec_max 64) w = Outcome hi w []) ∧
    lo < hi.
Proof.
  assert (H : 32 ≤ 64) by lia.
  split; [exact H | exact (prec_bounds_constant 64 H)].
Defined.

(** ** The stdin helpers, for every C library *)

(** C7.  Under every meaning of the C library and from every world,
    both helpers return 0 or -1 and nothing else: 0 exactly when every
    step went through, -1 for each way a step can fail (no stream, a
    stream other than [stdin], a negative [dup2]). *)
Theorem stdin_helpers_return_0_or_minus_1
    (W : Type) (h : handler libc W) (w : W) :
  (∀ filepath,
     let o := run h (ckalliope_redirect_stdin_from_file filepath) w in
     (returned o = 0 ∨ returned o = -1) ∧
     returned o =
       if decide ((h (freopen (Some filepath) "r" stdin) w).1 = stdin)
       then 0 else -1) ∧
  (∀ original_fd,
     let o := run h (ckalliope_restore_stdin original_fd) w in
     let d := h (dup2 original_fd STDIN_FILENO) w in
     (returned o = 0 ∨ returned o = -1) ∧
     returned o =
       if bool_decide (d.1 < 0) then -1
       else if decide ((h (freopen None "r" stdin) d.2).1 = stdin)
       then 0 else -1).
Proof.
  split.
  - intros filepath o. subst o. rewrite run_redirect. cbn zeta.
    case_decide; cbn; auto.
  - intros original_fd o d. subst o d. rewrite run_restore. cbn zeta.
    case_bool_decide; [cbn; auto |]. case_decide; cbn; auto.
Qed.

(** C4.  Under every meaning of the C library, the calls
    [ckalliope_restore_stdin] makes are an initial run of: [dup2] of
    the saved descriptor onto the standard-input descriptor, [freopen]
    of [stdin] with a null path, [clearerr] on [stdin]; each step runs
    in the world the step before left.  A negative [dup2] ends the run
    there with -1; a null [freopen] ends it there with -1; 0 is
    returned after the [clearerr]. *)
Theorem restore_stdin_steps
    (W : Type) (h : handler libc W) (original_fd : Z) (w : W) :
  let d := h (dup2 original_fd STDIN_FILENO) w in
  let f := h (freopen None "r" stdin) d.2 in
  let c := h (clearerr stdin) f.2 in
  let o := run h (ckalliope_restore_stdin original_fd) w in
  calls o `prefix_of`
    [dup2 original_fd STDIN_FILENO; freopen None "r" stdin; clearerr stdin] ∧
  o = if bool_decide (d.1 < 0)
      then Outcome (Σ := libc) (-1) d.2 [dup2 original_fd STDIN_FILENO]
      else if decide (f.1 = NULL)
      then Outcome (Σ := libc) (-1) f.2
             [dup2 original_fd STDIN_FILENO; freopen None "r" stdin]
      else if decide (f.1 = stdin)
      then Outcome (Σ := libc) 0 c.2
             [dup2 original_fd STDIN_FILENO; freopen None "r" stdin;
              clearerr stdin]
      else Outcome (Σ := libc) (-1) f.2
             [dup2 original_fd STDIN_FILENO; freopen None "r" stdin].
Proof.
  intros d f c o. subst o. rewrite run_restore. fold d f c.
  case_bool_decide.
  { split; [| done]. by eexists [_; _]. }
  destruct (decide (f.1 = stdin)) as [Hf | Hf].
  - split; [done |]. rewrite Hf. by rewrite decide_False.
  - split; [by eexists [_] |]. by case_decide.
Qed.

(** C9.  When [dup2] has succeeded and [freopen] hands back a stream
    that is not null and not [stdin], [ckalliope_restore_stdin]
    returns -1.  By then the [dup2] has been carried out; the world is
    the one [freopen] left, and [clearerr] is not called. *)
Theorem restore_stdin_foreign_stream
    (W : Type) (h : handler libc W) (original_fd : Z) (w : W) (s : stream) :
  let d := h (dup2 original_fd STDIN_FILENO) w in
  let f := h (freopen None "r" stdin) d.2 in
  0 ≤ d.1 →
  f.1 = Some s →
  s ≠ Stdin →
  run h (ckalliope_restore_stdin original_fd) w =
    Outcome (Σ := libc) (-1) f.2
      [dup2 original_fd STDIN_FILENO; freopen None "r" stdin].
Proof.
  intros d f Hd Hf Hs. rewrite run_restore. fold d f.
  rewrite bool_decide_eq_false_2 by lia.
  rewrite decide_False; [done |]. rewrite Hf. unfold stdin. congruence.
Qed.

Lemma restore_stdin_foreign_stream_witness :
  run (scripted 0 (Some (Stream 7))) (ckalliope_restore_stdin 5) [] =
    Outcome (Σ := libc) (-1)
      [dup2 5 STDIN_FILENO; freopen None "r" stdin]
      [dup2 5 STDIN_FILENO; freopen None "r" stdin].
Proof.
  apply (restore_stdin_foreign_stream _ (scripted 0 (Some (Stream 7))) 5 []
           (Stream 7)).
  - simpl. lia.
  - reflexivity.
  - discriminate.
Defined.

(** Every call the helpers make is on the input side, and none is an
    [fflush]. *)
Lemma redirect_calls_input_side {W} (h : handler libc W) filepath w :
  Forall (λ a, input_side a = true)
    (calls (run h (ckalliope_redirect_stdin_from_file filepath) w)).
Proof.
  rewrite run_redirect. cbn zeta. case_decide; cbn; repeat constructor.
Qed.

Lemma restore_calls_input_side {W} (h : handler libc W) original_fd w :
  Forall (λ a, input_side a = true)
    (calls (run h (ckalliope_restore_stdin original_fd) w)).
Proof.
  rewrite run_restore. cbn zeta.
  case_bool_decide; [| case_decide]; cbn; repeat constructor.
Qed.

Lemma input_side_not_fflush (l : list libc_action) (fp : FILE_ptr) :
  Forall (λ a, input_side a = true) l → fflush fp ∉ l.
Proof.
  intros Hall Hin. rewrite Forall_forall in Hall.
  by specialize (Hall _ Hin).
Qed.

(** A run whose calls all preserve an observation preserves it. *)
Lemma run_preserves {Σ W O R} (h : handler Σ W) (out : W → O)
    (keep : action Σ → Prop) :
  (∀ a w, keep a → out (h a w).2 = out w) →
  ∀ (p : prog Σ R) (w : W),
    Forall keep (calls (run h p w)) → out (world (run h p w)) = out w.
Proof.
  intros Hkeep p. induction p as [r | a k IH]; intros w Hall; [done |].
  cbn in *. inversion Hall as [| ? ? Ha Hrest]; subst.
  rewrite IH by done. by apply Hkeep.
Qed.

(** C8.  Under every meaning of the C library, every call either
    helper makes, on success and on failure alike, acts on the [stdin]
    stream or on the standard-input descriptor, and none is an
    [fflush].  Hence anything observed of the world that those
    input-side calls leave alone, such as the state and buffers of the
    output streams, is the same after the helper as before. *)
Theorem stdin_helpers_touch_input_only
    (W O : Type) (h : handler libc W) (out : W → O) :
  (∀ a w, input_side a = true → out (h a w).2 = out w) →
  ∀ w : W,
    (∀ filepath,
       let o := run h (ckalliope_redirect_stdin_from_file filepath) w in
       Forall (λ a, input_side a = true) (calls o) ∧
       (∀ fp, fflush fp ∉ calls o) ∧
       out (world o) = out w) ∧
    (∀ original_fd,
       let o := run h (ckalliope_restore_stdin original_fd) w in
       Forall (λ a, input_side a = true) (calls o) ∧
       (∀ fp, fflush fp ∉ calls o) ∧
       out (world o) = out w).
Proof.
  intros Hframe w. split.
  - intros filepath o.
    pose proof (redirect_calls_input_side h filepath w) as Hall.
    split; [done |]. split.
    + intros fp. by apply input_side_not_fflush.
    + by apply (run_preserves h out (λ a, input_side a = true)).
  - intros original_fd o.
    pose proof (restore_calls_input_side h original_fd w) as Hall.
    split; [done |]. split.
    + intros fp. by apply input_side_not_fflush.
    + by apply (run_preserves h out (λ a, input_side a = true)).
Qed.

(** ** The stdin helpers on the POSIX model *)

(** None of the input-side calls touches what [stdout] holds. *)
Lemma posix_output_frame (a : libc_action) (w : process) :
  input_side a = true → output_state (posix a w).2 = output_state w.
Proof.
  destruct a as [path mode fp | fp | fp | oldfd newfd | fp | fp]; cbn;
    intros Hin; try done; apply bool_decide_eq_true_1 in Hin; subst;
    unfold posix_freopen, posix_clearerr, posix_rewind, posix_dup2,
      posix_fgetc, clear_indicators, close_stdin, stdin;
    repeat case_match; simplify_eq; done.
Qed.

Lemma stdin_helpers_touch_input_only_witness :
  (∀ a w,
     input_side a = true → output_state (posix a w).2 = output_state w) ∧
  output_state
    (world (run posix (ckalliope_redirect_stdin_from_file "in.txt")
              sample_process)) = ([x6f; x6b], []) ∧
  output_state
    (world (run posix (ckalliope_restore_stdin 3) sample_process))
    = ([x6f; x6b], []).
Proof.
  split; [exact posix_output_frame |].
  pose proof (stdin_helpers_touch_input_only process _ posix output_state
                posix_output_frame sample_process) as [Hred Hres].
  split.
  - exact (proj2 (proj2 (Hred "in.txt"%string))).
  - exact (proj2 (proj2 (Hres 3))).
Defined.

Lemma p_files_close_stdin (w : process) :
  p_files (close_stdin w) = p_files w.
Proof. unfold close_stdin. by case_match. Qed.

Lemma p_stdin_close_stdin (w : process) : p_stdin (close_stdin w) = None.
Proof. unfold close_stdin. by case_match. Qed.

Lemma stdin_source_close_stdin (w : process) :
  stdin_source (close_stdin w) = None.
Proof. unfold stdin_source. by rewrite p_stdin_close_stdin. Qed.

(** [freopen] of [stdin] on a path that cannot be opened. *)
Lemma posix_freopen_missing (filepath : string) (w : process) :
  p_files w !! filepath = None →
  posix_freopen (Some filepath) stdin w = (NULL, close_stdin w).
Proof.
  intros Hnone. unfold posix_freopen, stdin.
  by rewrite p_files_close_stdin, Hnone.
Qed.

(** [freopen] of [stdin] on a readable file. *)
Lemma posix_freopen_file (filepath : string) (data : list byte) (w : process) :
  p_files w !! filepath = Some data →
  let w1 := close_stdin w in
  let fd := first_free (p_fds w1) in
  posix_freopen (Some filepath) stdin w =
    (stdin,
     Process (p_files w) (p_ofds w1 ++ [Ofd data 0%nat])
       (<[fd := length (p_ofds w1)]> (p_fds w1))
       (Some (File fd false false)) (p_stdout w1) (p_written w1)
       (p_aborted w1)).
Proof.
  intros Hfile. unfold posix_freopen, stdin.
  rewrite p_files_close_stdin, Hfile.
  unfold set_stdin, set_fds, set_ofds. cbn.
  by rewrite p_files_close_stdin.
Qed.

(** C2, as stated, fails: redirecting [sample_process] to a path that
    names no file returns -1, and standard input, which was reading
    from its source on descriptor 0, is closed afterwards. *)
Lemma redirect_failure_keeps_stdin_counterexample :
  ¬ redirect_failure_keeps_stdin.
Proof.
  intros Hclaim.
  destruct (Hclaim "missing"%string sample_process) as (_ & Hstream & _).
  - vm_compute. discriminate.
  - vm_compute in Hstream. discriminate.
Qed.

(** C2, amended.  When [ckalliope_redirect_stdin_from_file] fails it
    returns -1 after the single [freopen] call and nothing else, and
    the process is left as that call left it: the file could not be
    opened, the stream that was standard input has been closed and
    its descriptor released, and standard input is bound to nothing. *)
Theorem redirect_failure_state (filepath : string) (w : process) :
  returned (run posix (ckalliope_redirect_stdin_from_file filepath) w) ≠ 0 →
  let o := run posix (ckalliope_redirect_stdin_from_file filepath) w in
  returned o = -1 ∧
  calls o = [freopen (Some filepath) "r" stdin] ∧
  p_files w !! filepath = None ∧
  world o = close_stdin w ∧
  p_stdin (world o) = None ∧
  stdin_source (world o) = None.
Proof.
  rewrite run_redirect. cbn zeta. cbn [posix].
  destruct (p_files w !! filepath) as [data |] eqn:Hfile.
  - rewrite (posix_freopen_file _ _ _ Hfile). cbn.
    rewrite decide_True by done. done.
  - rewrite (posix_freopen_missing _ _ Hfile). cbn.
    intros _. split_and!; try done.
    + apply p_stdin_close_stdin.
    + apply stdin_source_close_stdin.
Qed.

Lemma redirect_failure_state_witness :
  returned
    (run posix (ckalliope_redirect_stdin_from_file "missing") sample_process)
    = -1 ∧
  stdin_source
    (world
       (run posix (ckalliope_redirect_stdin_from_file "missing")
          sample_process)) = None.
Proof.
  assert (H : returned
                (run posix (ckalliope_redirect_stdin_from_file "missing")
                   sample_process) ≠ 0)
    by (vm_compute; discriminate).
  pose proof (redirect_failure_state "missing" sample_process H) as Hst.
  split; [exact (proj1 Hst) | exact (proj2 (proj2 (proj2 (proj2 (proj2 Hst)))))].
Defined.

(** C3.  For every path that names a readable file, and from every
    process state, [ckalliope_redirect_stdin_from_file] returns 0 after
    [freopen], [clearerr] and [rewind] on [stdin]; afterwards the
    stream is open with neither indicator set and reads from that
    file's bytes at offset 0, so the next [fgetc] on [stdin] yields the
    file's first byte (end-of-file if the file is empty). *)
Theorem redirect_success (filepath : string) (data : list byte) (w : process) :
  p_files w !! filepath = Some data →
  let o := run posix (ckalliope_redirect_stdin_from_file filepath) w in
  returned o = 0 ∧
  calls o =
    [freopen (Some filepath) "r" stdin; clearerr stdin; rewind stdin] ∧
  (∃ fd, p_stdin (world o) = Some (File fd false false)) ∧
  stdin_source (world o) = Some (Ofd data 0%nat) ∧
  (posix_fgetc stdin (world o)).1 =
    match data with
    | b :: _ => Z.of_N (Byte.to_N b)
    | [] => EOF
    end.
Proof.
  intros Hfile. rewrite run_redirect. cbn zeta. cbn [posix].
  rewrite (posix_freopen_file _ _ _ Hfile). cbn [fst snd].
  rewrite decide_True by done. cbn [returned calls world].
  unfold posix_clearerr, posix_rewind, clear_indicators, set_stdin,
    set_ofds, stdin.
  cbn. rewrite lookup_insert_eq. cbn.
  rewrite list_lookup_alter_eq, list_lookup_middle by done. cbn.
  split_and!; try done.
  - by eexists.
  - by destruct data.
Qed.

Lemma redirect_success_witness :
  returned
    (run posix (ckalliope_redirect_stdin_from_file "in.txt") sample_process)
    = 0 ∧
  (posix_fgetc stdin
     (world
        (run posix (ckalliope_redirect_stdin_from_file "in.txt")
           sample_process))).1 = 51.
Proof.
  assert (H : p_files sample_process !! "in.txt"%string
              = Some [x33; x2e; x31; x34; x0a]) by (vm_compute; reflexivity).
  pose proof (redirect_success "in.txt" _ sample_process H) as Hok.
  split; [exact (proj1 Hok) | exact (proj2 (proj2 (proj2 (proj2 Hok))))].
Defined.

(** ** More on the two stdin helpers *)

(** X1.  For every C library: the calls
    [ckalliope_redirect_stdin_from_file] makes are an initial run of [freopen] of [stdin] on the path it was
    given, in mode ["r"], then [clearerr] and [rewind] on [stdin], each
    in the world the step before left.  The last two happen only when
    [freopen] handed back [stdin] itself; a null stream and a stream
    other than [stdin] both end the run after [freopen], with -1. *)
Theorem redirect_stdin_steps
    (W : Type) (h : handler libc W) (filepath : string) (w : W) :
  let f := h (freopen (Some filepath) "r" stdin) w in
  let c := h (clearerr stdin) f.2 in
  let r := h (rewind stdin) c.2 in
  let o := run h (ckalliope_redirect_stdin_from_file filepath) w in
  calls o `prefix_of`
    [freopen (Some filepath) "r" stdin; clearerr stdin; rewind stdin] ∧
  o = if decide (f.1 = NULL)
      then Outcome (Σ := libc) (-1) f.2 [freopen (Some filepath) "r" stdin]
      else if decide (f.1 = stdin)
      then Outcome (Σ := libc) 0 r.2
             [freopen (Some filepath) "r" stdin; clearerr stdin;
              rewind stdin]
      else Outcome (Σ := libc) (-1) f.2 [freopen (Some filepath) "r" stdin].
Proof.
  intros f c r o. subst o. rewrite run_redirect. fold f c r.
  destruct (decide (f.1 = stdin)) as [Hf | Hf].
  - split; [done |]. rewrite Hf. by rewrite decide_False.
  - split; [by eexists [_; _] |]. by case_decide.
Qed.

(** [open] never hands out a descriptor that is in use. *)
Lemma first_free_from_free (fuel : nat) (fds : gmap Z nat) (n : Z) :
  (size (filter (λ kv : Z * nat, (n ≤ kv.1)%Z) fds) ≤ fuel)%nat →
  fds !! first_free_from fds fuel n = None.
Proof.
  revert n. induction fuel as [| fuel IH]; intros n Hsize; cbn.
  - destruct (fds !! n) as [v |] eqn:Hn; [| done].
    assert (Hin : filter (λ kv : Z * nat, n ≤ kv.1) fds !! n = Some v)
      by (apply map_lookup_filter_Some; split; [done | cbn; lia]).
    assert (Hempty : filter (λ kv : Z * nat, n ≤ kv.1) fds = ∅)
      by (apply map_size_empty_inv; lia).
    rewrite Hempty in Hin. by rewrite lookup_empty in Hin.
  - case_decide as Hn; [done |]. apply IH.
    destruct (fds !! n) as [v |] eqn:Hv; [| done].
    assert (Hin : filter (λ kv : Z * nat, n ≤ kv.1) fds !! n = Some v)
      by (apply map_lookup_filter_Some; split; [done | cbn; lia]).
    assert (Hsub : filter (λ kv : Z * nat, n + 1 ≤ kv.1) fds
                   ⊆ delete n (filter (λ kv : Z * nat, n ≤ kv.1) fds)).
    { apply map_subseteq_spec. intros k x Hk.
      apply map_lookup_filter_Some in Hk as [Hk Hle]. cbn in Hle.
      rewrite lookup_delete_ne by lia.
      apply map_lookup_filter_Some. split; [done | cbn; lia]. }
    apply map_subseteq_size in Hsub.
    rewrite map_size_delete_Some in Hsub by eauto. lia.
Qed.

Lemma first_free_free (fds : gmap Z nat) : fds !! first_free fds = None.
Proof.
  apply first_free_from_free. apply map_subseteq_size, map_filter_subseteq.
Qed.

(** With descriptor 0 not in use, [open] hands out 0. *)
Lemma first_free_zero (fds : gmap Z nat) :
  fds !! 0 = None → first_free fds = 0.
Proof.
  intros H0. unfold first_free. destruct (size fds); cbn; [done |].
  by rewrite decide_True.
Qed.

Lemma p_fds_close_stdin (w : process) (k : Z) :
  (∀ f, p_stdin w = Some f → k ≠ file_fd f) →
  p_fds (close_stdin w) !! k = p_fds w !! k.
Proof.
  intros Hk. unfold close_stdin. destruct (p_stdin w) as [f |]; [| done].
  cbn. apply lookup_delete_ne. by specialize (Hk f eq_refl).
Qed.

Lemma p_ofds_close_stdin (w : process) : p_ofds (close_stdin w) = p_ofds w.
Proof. unfold close_stdin. by case_match. Qed.

(** The process a redirection to a readable file leaves. *)
Lemma redirect_world_file (filepath : string) (data : list byte) (w : process) :
  p_files w !! filepath = Some data →
  world (run posix (ckalliope_redirect_stdin_from_file filepath) w) =
    Process (p_files w) (p_ofds w ++ [Ofd data 0%nat])
      (<[first_free (p_fds (close_stdin w)) := length (p_ofds w)]>
         (p_fds (close_stdin w)))
      (Some (File (first_free (p_fds (close_stdin w))) false false))
      (p_stdout (close_stdin w)) (p_written (close_stdin w))
      (p_aborted (close_stdin w)).
Proof.
  intros Hfile. rewrite run_redirect. cbn zeta. cbn [posix].
  rewrite (posix_freopen_file _ _ _ Hfile). cbn [fst snd].
  rewrite decide_True by done. cbn [world].
  unfold posix_clearerr, posix_rewind, clear_indicators, set_stdin,
    set_ofds, stdin.
  cbn. rewrite lookup_insert_eq, p_ofds_close_stdin. f_equal.
  rewrite <- (Nat.add_0_r (length (p_ofds w))) at 1.
  by rewrite alter_app_r.
Qed.

(** The process a redirection to a path that cannot be opened leaves. *)
Lemma redirect_world_missing (filepath : string) (w : process) :
  p_files w !! filepath = None →
  world (run posix (ckalliope_redirect_stdin_from_file filepath) w) =
    close_stdin w.
Proof.
  intros Hfile. rewrite run_redirect. cbn zeta. cbn [posix].
  by rewrite (posix_freopen_missing _ _ Hfile).
Qed.

(** X2.  On the POSIX model, a redirection, whether it succeeds or fails,
    leaves every descriptor other than the one [stdin] was on as it
    was: still open, on the same open file description, whose bytes
    and offset are unchanged.  A descriptor saved beforehand for
    [ckalliope_restore_stdin] thus survives the redirection. *)
Theorem redirect_keeps_other_descriptors
    (filepath : string) (w : process) (k : Z) (i : nat) (src : ofd) :
  (∀ f, p_stdin w = Some f → k ≠ file_fd f) →
  p_fds w !! k = Some i →
  p_ofds w !! i = Some src →
  let w' := world (run posix (ckalliope_redirect_stdin_from_file filepath) w) in
  p_fds w' !! k = Some i ∧ p_ofds w' !! i = Some src.
Proof.
  intros Hk Hfd Hofd w'. subst w'.
  pose proof (p_fds_close_stdin w k Hk) as Hclose.
  destruct (p_files w !! filepath) as [data |] eqn:Hfile.
  - rewrite (redirect_world_file _ _ _ Hfile). cbn. split.
    + rewrite lookup_insert_ne; [by rewrite Hclose |].
      intros Heq. pose proof (first_free_free (p_fds (close_stdin w))) as Hfree.
      rewrite Heq, Hclose, Hfd in Hfree. done.
    + rewrite lookup_app_l; [done |]. by eapply lookup_lt_Some.
  - rewrite (redirect_world_missing _ _ Hfile).
    by rewrite Hclose, p_ofds_close_stdin.
Qed.

Lemma redirect_keeps_other_descriptors_witness :
  let w' :=
    world (run posix (ckalliope_redirect_stdin_from_file "in.txt")
             sample_process) in
  p_fds w' !! 3 = Some 0%nat ∧ p_ofds w' !! 0%nat = Some (Ofd [x68; x69] 1%nat).
Proof.
  apply (redirect_keeps_other_descriptors "in.txt" sample_process 3 0%nat
           (Ofd [x68; x69] 1%nat)).
  - intros f Hf. vm_compute in Hf. injection Hf as <-. cbn. lia.
  - vm_compute. reflexivity.
  - reflexivity.
Defined.

(** ** Restoring, with and without a redirection before *)


Lemma posix_dup2_onto_stdin (oldfd : Z) (i : nat) (w : process) :
  0 ≤ oldfd →
  p_fds w !! oldfd = Some i →
  posix_dup2 oldfd STDIN_FILENO w =
    (STDIN_FILENO, set_fds (<[STDIN_FILENO := i]> (p_fds w)) w).
Proof.
  intros Hpos Hi. unfold posix_dup2.
  rewrite decide_True by (unfold STDIN_FILENO; lia). by rewrite Hi.
Qed.

(** [freopen] with a null path on an open [stdin] whose descriptor is
    open: the file behind it is opened afresh. *)
Lemma posix_freopen_null_reopen (w : process) (f : FILE) (i : nat) (src : ofd) :
  p_stdin w = Some f →
  p_fds w !! file_fd f = Some i →
  p_ofds w !! i = Some src →
  posix_freopen None stdin w =
    (stdin,
     set_stdin (Some (File (file_fd f) false false))
       (set_fds (<[file_fd f := length (p_ofds w)]> (p_fds w))
          (set_ofds (p_ofds w ++ [Ofd (ofd_data src) 0%nat]) w))).
Proof.
  intros Hs Hi Hsrc. unfold posix_freopen, stdin.
  rewrite Hs, Hi. cbn. by rewrite Hsrc.
Qed.

(** What [ckalliope_restore_stdin] returns and leaves when [stdin] is
    open on the standard-input descriptor and the descriptor handed in
    is open. *)
Lemma restore_posix_ready
    (original_fd : Z) (i : nat) (src : ofd) (f : FILE) (w : process) :
  p_stdin w = Some f →
  file_fd f = STDIN_FILENO →
  0 ≤ original_fd →
  p_fds w !! original_fd = Some i →
  p_ofds w !! i = Some src →
  run posix (ckalliope_restore_stdin original_fd) w =
    Outcome (Σ := libc) 0
      (Process (p_files w) (p_ofds w ++ [Ofd (ofd_data src) 0%nat])
         (<[STDIN_FILENO := length (p_ofds w)]> (p_fds w))
         (Some (File STDIN_FILENO false false))
         (p_stdout w) (p_written w) (p_aborted w))
      [dup2 original_fd STDIN_FILENO; freopen None "r" stdin; clearerr stdin].
Proof.
  intros Hs Hfd Hpos Hi Hsrc.
  rewrite run_restore. cbn zeta. cbn [posix]. cbn [result libc libc_result].
  rewrite (posix_dup2_onto_stdin _ _ _ Hpos Hi). cbn [fst snd].
  rewrite bool_decide_eq_false_2 by (unfold STDIN_FILENO; lia).
  rewrite (posix_freopen_null_reopen _ f i src).
  2:{ done. }
  2:{ cbn. rewrite Hfd. apply lookup_insert_eq. }
  2:{ done. }
  cbn [fst snd]. rewrite decide_True by done. f_equal.
  unfold posix_clearerr, stdin, clear_indicators, set_stdin, set_fds, set_ofds.
  cbn. rewrite Hfd. by rewrite insert_insert_eq.
Qed.




(** Restoring from the saved descriptor, with no redirection before
    and with one: the same three calls, the same result, the same
    bytes behind standard input, from the first. *)
Example restore_without_redirect :
  let o := run posix (ckalliope_restore_stdin 3) sample_process in
  returned o = 0 ∧
  calls o = [dup2 3 STDIN_FILENO; freopen None "r" stdin; clearerr stdin] ∧
  stdin_source (world o) = Some (Ofd [x68; x69] 0%nat).
Proof. vm_compute. done. Qed.

Example restore_after_redirect :
  let o :=
    run posix (ckalliope_restore_stdin 3)
      (after_redirects ["in.txt"%string] sample_process) in
  returned o = 0 ∧
  calls o = [dup2 3 STDIN_FILENO; freopen None "r" stdin; clearerr stdin] ∧
  stdin_source (world o) = Some (Ofd [x68; x69] 0%nat).
Proof. vm_compute. done. Qed.

Example restore_closed_descriptor :
  run posix (ckalliope_restore_stdin 9) sample_process =
    Outcome (Σ := libc) (-1) sample_process [dup2 9 STDIN_FILENO].
Proof. vm_compute. done. Qed.

(** ** More on restoring *)

Lemma posix_dup2_keeps (oldfd newfd : Z) (w : process) :
  p_files (posix_dup2 oldfd newfd w).2 = p_files w ∧
  p_stdin (posix_dup2 oldfd newfd w).2 = p_stdin w ∧
  ∀ k, k ≠ newfd →
       p_fds (posix_dup2 oldfd newfd w).2 !! k = p_fds w !! k.
Proof.
  unfold posix_dup2. repeat case_match; cbn; split_and!; try done.
  intros k Hk. by rewrite lookup_insert_ne.
Qed.

Lemma posix_freopen_null_keeps (w : process) (f : FILE) :
  p_stdin w = Some f →
  p_files (posix_freopen None stdin w).2 = p_files w ∧
  ∀ k, k ≠ file_fd f →
       p_fds (posix_freopen None stdin w).2 !! k = p_fds w !! k.
Proof.
  intros Hs. unfold posix_freopen, stdin, close_stdin. rewrite Hs.
  case_match; cbn; (split; [done |]); intros k Hk.
  - by rewrite lookup_insert_ne.
  - by rewrite lookup_delete_ne.
Qed.

Lemma posix_clearerr_keeps (w : process) :
  p_files (posix_clearerr stdin w).2 = p_files w ∧
  p_fds (posix_clearerr stdin w).2 = p_fds w.
Proof. cbn. unfold clear_indicators. by case_match. Qed.

(** X3.  On the POSIX model, with [stdin] an open stream,
    [ckalliope_restore_stdin], for any descriptor handed in and
    whether it succeeds or fails, changes no file and leaves every
    descriptor other than the standard-input descriptor and the one
    [stdin] is on bound as it was: the saved descriptor itself stays
    open. *)
Theorem restore_stdin_frame
    (original_fd : Z) (w : process) (f : FILE) (k : Z) :
  p_stdin w = Some f →
  k ≠ STDIN_FILENO →
  k ≠ file_fd f →
  let o := run posix (ckalliope_restore_stdin original_fd) w in
  p_fds (world o) !! k = p_fds w !! k ∧ p_files (world o) = p_files w.
Proof.
  intros Hs Hk0 Hkf o. subst o.
  rewrite run_restore. cbn zeta. cbn [posix]. cbn [result libc libc_result].
  destruct (posix_dup2_keeps original_fd STDIN_FILENO w) as (Hd1 & Hd2 & Hd3).
  rewrite Hs in Hd2.
  destruct (posix_freopen_null_keeps
              (posix_dup2 original_fd STDIN_FILENO w).2 f Hd2) as [Hf1 Hf2].
  destruct (posix_clearerr_keeps
              (posix_freopen None stdin
                 (posix_dup2 original_fd STDIN_FILENO w).2).2) as [Hc1 Hc2].
  case_bool_decide; [| case_decide]; cbn [world];
    rewrite ?Hc1, ?Hc2, ?Hf1, ?Hf2, ?Hd1, ?Hd3 by done; done.
Qed.

Lemma restore_stdin_frame_witness :
  p_fds (world (run posix (ckalliope_restore_stdin 3) sample_process)) !! 3
    = Some 0%nat ∧
  p_files (world (run posix (ckalliope_restore_stdin 3) sample_process))
    = p_files sample_process.
Proof.
  assert (H0 : (3 : Z) ≠ STDIN_FILENO) by (unfold STDIN_FILENO; lia).
  assert (H1 : (3 : Z) ≠ file_fd (File 0 false true)) by (cbn; lia).
  exact (restore_stdin_frame 3 sample_process (File 0 false true) 3
           eq_refl H0 H1).
Defined.

(** The process a redirection to a readable file leaves when [stdin]
    was on the standard-input descriptor: it is there again. *)
Lemma redirect_world_ready
    (filepath : string) (data : list byte) (w : process) (f : FILE) :
  p_files w !! filepath = Some data →
  p_stdin w = Some f →
  file_fd f = STDIN_FILENO →
  world (run posix (ckalliope_redirect_stdin_from_file filepath) w) =
    Process (p_files w) (p_ofds w ++ [Ofd data 0%nat])
      (<[STDIN_FILENO := length (p_ofds w)]>
         (delete STDIN_FILENO (p_fds w)))
      (Some (File STDIN_FILENO false false))
      (p_stdout w) (p_written w) (p_aborted w).
Proof.
  intros Hfile Hs Hfd. rewrite (redirect_world_file _ _ _ Hfile).
  assert (Hclose : close_stdin w =
                     set_stdin None
                       (set_fds (delete STDIN_FILENO (p_fds w)) w)).
  { unfold close_stdin. by rewrite Hs, Hfd. }
  rewrite Hclose. cbn.
  rewrite first_free_zero by apply lookup_delete_eq. done.
Qed.

(** X4.  On the POSIX model, [ckalliope_restore_stdin] handed the
    standard-input descriptor itself after a redirection does not
    bring the earlier source back: it returns 0 and [stdin] reads the
    bytes of the file it was redirected to, from the first. *)
Theorem restore_stdin_from_itself
    (filepath : string) (data : list byte) (w : process) (f : FILE) :
  p_files w !! filepath = Some data →
  p_stdin w = Some f →
  file_fd f = STDIN_FILENO →
  let w1 := world (run posix (ckalliope_redirect_stdin_from_file filepath) w) in
  let o := run posix (ckalliope_restore_stdin STDIN_FILENO) w1 in
  returned o = 0 ∧ stdin_source (world o) = Some (Ofd data 0%nat).
Proof.
  intros Hfile Hs Hfd w1 o.
  pose proof (redirect_world_ready _ _ _ _ Hfile Hs Hfd) as Hw1. fold w1 in Hw1.
  assert (Hready :
    run posix (ckalliope_restore_stdin STDIN_FILENO) w1 =
      Outcome (Σ := libc) 0
        (Process (p_files w1) (p_ofds w1 ++ [Ofd data 0%nat])
           (<[STDIN_FILENO := length (p_ofds w1)]> (p_fds w1))
           (Some (File STDIN_FILENO false false))
           (p_stdout w1) (p_written w1) (p_aborted w1))
        [dup2 STDIN_FILENO STDIN_FILENO; freopen None "r" stdin;
         clearerr stdin]).
  { apply (restore_posix_ready STDIN_FILENO (length (p_ofds w))
             (Ofd data 0%nat) (File STDIN_FILENO false false)).
    - by rewrite Hw1.
    - done.
    - done.
    - rewrite Hw1. cbn. apply lookup_insert_eq.
    - rewrite Hw1. cbn. by apply list_lookup_middle. }
  subst o. rewrite Hready. cbn [returned world]. split; [done |].
  unfold stdin_source. cbn. rewrite lookup_insert_eq. cbn.
  by apply list_lookup_middle.
Qed.

Lemma restore_stdin_from_itself_witness :
  returned
    (run posix (ckalliope_restore_stdin STDIN_FILENO)
       (world (run posix (ckalliope_redirect_stdin_from_file "in.txt")
                 sample_process))) = 0 ∧
  stdin_source
    (world
       (run posix (ckalliope_restore_stdin STDIN_FILENO)
          (world (run posix (ckalliope_redirect_stdin_from_file "in.txt")
                    sample_process))))
    = Some (Ofd [x33; x2e; x31; x34; x0a] 0%nat).
Proof.
  assert (H1 : p_files sample_process !! "in.txt"%string
               = Some [x33; x2e; x31; x34; x0a]) by (vm_compute; reflexivity).
  exact (restore_stdin_from_itself "in.txt" _ sample_process
           (File 0 false true) H1 eq_refl eq_refl).
Defined.

(** X5.  On the POSIX model, redirecting and then restoring brings the
    bytes of the earlier source back, from the first.  From a process
    whose [stdin] is on the standard-input descriptor, with another
    descriptor [saved] open: after a redirection to a readable file,
    [ckalliope_restore_stdin saved] returns 0 and [stdin], with both
    indicators clear, reads the bytes behind [saved] at offset 0,
    wherever the offset behind [saved] stood. *)
Theorem redirect_then_restore
    (filepath : string) (data : list byte) (w : process) (f : FILE)
    (saved : Z) (i : nat) (src : ofd) :
  p_files w !! filepath = Some data →
  p_stdin w = Some f →
  file_fd f = STDIN_FILENO →
  0 < saved →
  p_fds w !! saved = Some i →
  p_ofds w !! i = Some src →
  let w1 := world (run posix (ckalliope_redirect_stdin_from_file filepath) w) in
  let o := run posix (ckalliope_restore_stdin saved) w1 in
  returned o = 0 ∧
  p_stdin (world o) = Some (File STDIN_FILENO false false) ∧
  stdin_source (world o) = Some (Ofd (ofd_data src) 0%nat).
Proof.
  intros Hfile Hs Hfd Hsaved Hi Hsrc w1 o.
  pose proof (redirect_world_ready _ _ _ _ Hfile Hs Hfd) as Hw1. fold w1 in Hw1.
  assert (Hlt : (i < length (p_ofds w))%nat) by by eapply lookup_lt_Some.
  assert (Hready :
    run posix (ckalliope_restore_stdin saved) w1 =
      Outcome (Σ := libc) 0
        (Process (p_files w1) (p_ofds w1 ++ [Ofd (ofd_data src) 0%nat])
           (<[STDIN_FILENO := length (p_ofds w1)]> (p_fds w1))
           (Some (File STDIN_FILENO false false))
           (p_stdout w1) (p_written w1) (p_aborted w1))
        [dup2 saved STDIN_FILENO; freopen None "r" stdin; clearerr stdin]).
  { apply (restore_posix_ready saved i src (File STDIN_FILENO false false)).
    - by rewrite Hw1.
    - done.
    - lia.
    - rewrite Hw1. cbn.
      rewrite lookup_insert_ne by (unfold STDIN_FILENO; lia).
      by rewrite lookup_delete_ne by (unfold STDIN_FILENO; lia).
    - rewrite Hw1. cbn. by rewrite lookup_app_l. }
  subst o. rewrite Hready. cbn [returned world]. split_and!; try done.
  unfold stdin_source. cbn. rewrite lookup_insert_eq. cbn.
  by apply list_lookup_middle.
Qed.

Lemma redirect_then_restore_witness :
  let w1 :=
    world (run posix (ckalliope_redirect_stdin_from_file "in.txt")
             sample_process) in
  let o := run posix (ckalliope_restore_stdin 3) w1 in
  returned o = 0 ∧ stdin_source (world o) = Some (Ofd [x68; x69] 0%nat).
Proof.
  assert (H1 : p_files sample_process !! "in.txt"%string
               = Some [x33; x2e; x31; x34; x0a]) by (vm_compute; reflexivity).
  assert (H2 : p_fds sample_process !! 3 = Some 0%nat)
    by (vm_compute; reflexivity).
  assert (H3 : 0 < 3) by lia.
  pose proof (redirect_then_restore "in.txt" _ sample_process
                (File 0 false true) 3 0%nat (Ofd [x68; x69] 1%nat)
                H1 eq_refl eq_refl H3 H2 eq_refl) as Hrt.
  split; [exact (proj1 Hrt) | exact (proj2 (proj2 Hrt))].
Defined.

(** X6.  On the POSIX model, with [stdin] open on the standard-input
    descriptor and the descriptor handed in open, restoring twice
    ends as restoring once does: both calls return 0 after the same
    three calls, and after the second as after the first [stdin], both
    indicators clear, reads the bytes behind that descriptor from the
    first. *)
Theorem restore_stdin_twice
    (original_fd : Z) (w : process) (f : FILE) (i : nat) (src : ofd) :
  p_stdin w = Some f →
  file_fd f = STDIN_FILENO →
  0 ≤ original_fd →
  p_fds w !! original_fd = Some i →
  p_ofds w !! i = Some src →
  let o1 := run posix (ckalliope_restore_stdin original_fd) w in
  let o2 := run posix (ckalliope_restore_stdin original_fd) (world o1) in
  returned o1 = 0 ∧ returned o2 = 0 ∧
  calls o2 = calls o1 ∧
  p_stdin (world o2) = p_stdin (world o1) ∧
  stdin_source (world o1) = Some (Ofd (ofd_data src) 0%nat) ∧
  stdin_source (world o2) = Some (Ofd (ofd_data src) 0%nat).
Proof.
  intros Hs Hfd Hpos Hi Hsrc o1 o2.
  assert (Hlt : (i < length (p_ofds w))%nat) by by eapply lookup_lt_Some.
  pose proof (restore_posix_ready _ i src f w Hs Hfd Hpos Hi Hsrc) as H1.
  fold o1 in H1.
  assert (Hsrc1 : ∃ i' src',
            p_fds (world o1) !! original_fd = Some i' ∧
            p_ofds (world o1) !! i' = Some src' ∧
            ofd_data src' = ofd_data src).
  { rewrite H1. cbn [world p_fds p_ofds].
    destruct (decide (original_fd = STDIN_FILENO)) as [-> | Hne].
    - exists (length (p_ofds w)), (Ofd (ofd_data src) 0%nat).
      rewrite lookup_insert_eq. split; [done |]. split; [| done].
      by apply list_lookup_middle.
    - exists i, src. rewrite lookup_insert_ne by done.
      split; [done |]. split; [| done]. by rewrite lookup_app_l. }
  destruct Hsrc1 as (i' & src' & Hi' & Hsrc' & Hdata).
  assert (Hs1 : p_stdin (world o1) = Some (File STDIN_FILENO false false))
    by by rewrite H1.
  pose proof (restore_posix_ready _ i' src' _ (world o1) Hs1 eq_refl Hpos
                Hi' Hsrc') as H2.
  fold o2 in H2. rewrite Hdata in H2.
  assert (Hread : ∀ (ofds : list ofd) (fds : gmap Z nat) files out wr ab,
            stdin_source
              (Process files (ofds ++ [Ofd (ofd_data src) 0%nat])
                 (<[STDIN_FILENO := length ofds]> fds)
                 (Some (File STDIN_FILENO false false)) out wr ab)
            = Some (Ofd (ofd_data src) 0%nat)).
  { intros. unfold stdin_source. cbn. rewrite lookup_insert_eq. cbn.
    by apply list_lookup_middle. }
  assert (Hr1 : returned o1 = 0) by by rewrite H1.
  assert (Hc1 : calls o1 =
                  [dup2 original_fd STDIN_FILENO; freopen None "r" stdin;
                   clearerr stdin]) by by rewrite H1.
  assert (Hq1 : stdin_source (world o1) = Some (Ofd (ofd_data src) 0%nat))
    by (rewrite H1; apply Hread).
  rewrite Hr1, Hc1, Hs1, Hq1, H2. cbn [returned calls world p_stdin].
  split_and!; try done.
Qed.

Lemma restore_stdin_twice_witness :
  returned
    (run posix (ckalliope_restore_stdin 3)
       (world (run posix (ckalliope_restore_stdin 3) sample_process))) = 0 ∧
  stdin_source
    (world
       (run posix (ckalliope_restore_stdin 3)
          (world (run posix (ckalliope_restore_stdin 3) sample_process))))
    = Some (Ofd [x68; x69] 0%nat).
Proof.
  assert (H0 : 0 ≤ 3) by lia.
  pose proof (restore_stdin_twice 3 sample_process (File 0 false true)
                0%nat (Ofd [x68; x69] 1%nat)
                eq_refl eq_refl H0 eq_refl eq_refl) as H.
  split.
  - exact (proj1 (proj2 H)).
  - exact (proj2 (proj2 (proj2 (proj2 (proj2 H))))).
Defined.

(** X7.  On the POSIX model, a redirection from a process whose [stdin] is
    open uses up no descriptor: when the file is opened, as many
    descriptors are open afterwards as before, however often the
    redirection is repeated; when it cannot be opened, one fewer, the
    one [stdin] was on. *)
Theorem redirect_descriptor_count
    (filepath : string) (w : process) (f : FILE) :
  p_stdin w = Some f →
  is_Some (p_fds w !! file_fd f) →
  let w' := world (run posix (ckalliope_redirect_stdin_from_file filepath) w) in
  size (p_fds w') =
    match p_files w !! filepath with
    | Some _ => size (p_fds w)
    | None => pred (size (p_fds w))
    end.
Proof.
  intros Hs Hopen w'. subst w'.
  assert (Hclose : p_fds (close_stdin w) = delete (file_fd f) (p_fds w)).
  { unfold close_stdin. by rewrite Hs. }
  destruct (p_files w !! filepath) as [data |] eqn:Hfile.
  - rewrite (redirect_world_file _ _ _ Hfile). cbn.
    rewrite map_size_insert_None by apply first_free_free.
    rewrite Hclose, map_size_delete_Some by done.
    apply map_size_ne_0_lookup_2 in Hopen. lia.
  - rewrite (redirect_world_missing _ _ Hfile), Hclose.
    by apply map_size_delete_Some.
Qed.

Lemma redirect_descriptor_count_witness :
  size
    (p_fds
       (world
          (run posix (ckalliope_redirect_stdin_from_file "in.txt")
             (world
                (run posix (ckalliope_redirect_stdin_from_file "in.txt")
                   sample_process))))) = 2%nat.
Proof.
  assert (H1 : is_Some (p_fds sample_process !! 0))
    by (vm_compute; by eexists).
  pose proof (redirect_descriptor_count "in.txt" sample_process
                (File 0 false true) eq_refl H1) as Hfirst.
  cbn zeta in Hfirst.
  remember (world
              (run posix (ckalliope_redirect_stdin_from_file "in.txt")
                 sample_process)) as w1 eqn:Hw1.
  assert (Hs1 : p_stdin w1 = Some (File 0 false false))
    by (rewrite Hw1; vm_compute; reflexivity).
  assert (H2 : is_Some (p_fds w1 !! 0))
    by (rewrite Hw1; vm_compute; by eexists).
  pose proof (redirect_descriptor_count "in.txt" w1 (File 0 false false)
                Hs1 H2) as Hsecond.
  cbn zeta in Hsecond. rewrite Hsecond.
  assert (Hf1 : p_files w1 !! "in.txt"%string
                = Some [x33; x2e; x31; x34; x0a])
    by (rewrite Hw1; vm_compute; reflexivity).
  rewrite Hf1, Hfirst. vm_compute. reflexivity.
Defined.
